(** * cybozu-go/options: the generic container [Option[T]]

    A shallow embedding of [options.go] and the properties of its
    constructors, accessors, JSON and SQL adapters and equality.

    Go generics become Rocq polymorphism: a payload type [T] is a Rocq type
    equipped with the run-time information Go attaches to it (its zero value,
    how it converts to and from an interface value).  The packages the file
    imports ([fmt], [reflect], [encoding/json], [database/sql/driver]) are not
    part of the repository: what [options.go] uses of them is modelled in
    module [Go], per payload type where the package works by reflection. *)

From Stdlib Require Import ZArith List String Ascii Bool Lia DecimalString.
From Stdlib Require Import Floats.SpecFloat.
From Stdlib Require DecimalFacts DecimalPos.
Import ListNotations.
Local Open Scope string_scope.

(** ** The fragment of the Go run time used by options.go *)
Module Go.

(** Static and dynamic types, as [reflect.Type] describes them. *)
Inductive type : Type :=
| bool_t
| int_t
| int64_t
| uint8_t
| float64_t
| string_t
| slice_t (elem : type)
| time_Time_t
| interface_t          (* interface{}, also spelled any *)
| fmt_Stringer_t.      (* interface { String() string } *)

(** [reflect.Type.String], which the verb %T prints. *)
Fixpoint type_String (t : type) : string :=
  match t with
  | bool_t => "bool"
  | int_t => "int"
  | int64_t => "int64"
  | uint8_t => "uint8"
  | float64_t => "float64"
  | string_t => "string"
  | slice_t elem => "[]" ++ type_String elem
  | time_Time_t => "time.Time"
  | interface_t => "interface {}"
  | fmt_Stringer_t => "fmt.Stringer"
  end.

Definition is_interface (t : type) : bool :=
  match t with
  | interface_t | fmt_Stringer_t => true
  | _ => false
  end.

(** Payloads.  An integer is its mathematical value (no arithmetic is done on
    it here), a float64 an IEEE 754 datum, a slice either nil or a sequence
    of elements, a time an instant. *)
Definition int64 := Z.
Definition float64 := spec_float.
Definition slice (A : Type) := option (list A).
Definition time_Time := Z.

(** An interface value ([any]): nil, or a value together with its dynamic
    type.  The constructors are the six types of [driver.Value], Go's [int]
    and a slice the SQL driver does not accept. *)
Inductive any : Type :=
| Nil
| of_bool (b : bool)
| of_int (i : Z)
| of_int64 (i : int64)
| of_float64 (f : float64)
| of_string (s : string)
| of_bytes (b : slice Byte.byte)
| of_Time (t : time_Time)
| of_int64s (s : slice int64).

(** [reflect.TypeOf]: the dynamic type, none for the nil interface. *)
Definition TypeOf (v : any) : option type :=
  match v with
  | Nil => None
  | of_bool _ => Some bool_t
  | of_int _ => Some int_t
  | of_int64 _ => Some int64_t
  | of_float64 _ => Some float64_t
  | of_string _ => Some string_t
  | of_bytes _ => Some (slice_t uint8_t)
  | of_Time _ => Some time_Time_t
  | of_int64s _ => Some (slice_t int64_t)
  end.

(** What the verb %T of package fmt prints for an operand. *)
Definition Sprint_T (v : any) : string :=
  match TypeOf v with
  | None => "<nil>"
  | Some t => type_String t
  end.

(** Error values.  [fmt.Errorf] keeps its format and its operands; the
    operand of the verb %w is the error it wraps.  The errors of the other
    packages are opaque: the one [encoding/json] reports for an input it
    cannot decode into a target type (a syntax or a type error), and the one
    [database/sql/driver] reports for a value it cannot convert. *)
Inductive operand : Type :=
| arg (v : any)
| wrapped (e : error)
with error : Type :=
| json_error (data : string) (target : type)
| driver_error (v : any)
| Errorf (format : string) (a : list operand).

Fixpoint first_wrapped (a : list operand) : option error :=
  match a with
  | [] => None
  | wrapped e :: _ => Some e
  | arg _ :: rest => first_wrapped rest
  end.

(** [errors.Unwrap]. *)
Definition Unwrap (e : error) : option error :=
  match e with
  | Errorf _ a => first_wrapped a
  | _ => None
  end.

(** The operands printed with %T or %#v, in order. *)
Fixpoint values (a : list operand) : list any :=
  match a with
  | [] => []
  | arg v :: rest => v :: values rest
  | wrapped _ :: rest => values rest
  end.

(** A call that returns [(T, error)]. *)
Inductive result (A : Type) : Type :=
| Ok (a : A)
| Err (e : error).
Arguments Ok {A} a.
Arguments Err {A} e.

(** A call that returns or panics. *)
Inductive outcome (A : Type) : Type :=
| Return (a : A)
| Panic (e : error).
Arguments Return {A} a.
Arguments Panic {A} e.

(** A pointer [*T], seen through what it points to. *)
Inductive pointer (A : Type) : Type :=
| nil
| addr (v : A).
Arguments nil {A}.
Arguments addr {A} v.

(** A [func(A) B] may read and write the variables it captured: it is a
    state transformer over them. *)
Definition func (S A B : Type) : Type := A -> S -> B * S.

Definition ret {S A : Type} (a : A) : S -> A * S := fun s => (a, s).
Definition bind {S A B : Type} (m : S -> A * S) (k : A -> S -> B * S)
  : S -> B * S :=
  fun s => let (a, s') := m s in k a s'.

(** The run-time description of a payload type [T]: its type, its zero
    value, the conversion of a [T] to an interface value and the type
    assertion [v, ok := x.(T)], whose [v] is the zero value when [ok] is
    false. *)
Class GoType (T : Type) : Type := {
  static_type : type;
  zero : T;
  box : T -> any;
  assert : any -> T * bool
}.

(** [reflect.DeepEqual] on two values of static type [T]. *)
Class Reflect (T : Type) : Type :=
  DeepEqual : T -> T -> bool.

(** [encoding/json] on a value of type [T]: its encoding, and the decoding of
    an input other than null into a fresh [T]. *)
Class Marshal (T : Type) : Type :=
  json_encode : T -> result string.

Class Unmarshal (T : Type) : Type :=
  json_decode : string -> result T.

(** JSON white space, and the literal null. *)
Definition is_space (c : ascii) : bool :=
  match nat_of_ascii c with
  | 32 | 9 | 10 | 13 => true
  | _ => false
  end.

Fixpoint trim_left (s : string) : string :=
  match s with
  | String c rest => if is_space c then trim_left rest else s
  | EmptyString => EmptyString
  end.

Fixpoint rev_onto (s acc : string) : string :=
  match s with
  | String c rest => rev_onto rest (String c acc)
  | EmptyString => acc
  end.

Definition trim (s : string) : string :=
  rev_onto (trim_left (rev_onto (trim_left s) "")) "".

Definition is_null (data : string) : bool := String.eqb (trim data) "null".

(** [json.Marshal(p)] for [p : *T]: a nil pointer encodes as null, another
    one as the value it points to. *)
Definition json_Marshal {T : Type} `{Marshal T} (p : pointer T)
  : result string :=
  match p with
  | nil => Ok "null"
  | addr v => json_encode v
  end.

(** [json.Unmarshal(data, &p)] for a nil [p : *T]: null leaves [p] nil,
    any other input is decoded into a freshly allocated [T]. *)
Definition json_Unmarshal {T : Type} `{Unmarshal T} (data : string)
  : result (pointer T) :=
  if is_null data then Ok nil
  else match json_decode data with
       | Ok v => Ok (addr v)
       | Err e => Err e
       end.

(** [driver.IsValue]. *)
Definition IsValue (v : any) : bool :=
  match v with
  | Nil | of_int64 _ | of_float64 _ | of_bool _ | of_bytes _
  | of_string _ | of_Time _ => true
  | of_int _ | of_int64s _ => false
  end.

(** [driver.DefaultParameterConverter.ConvertValue]: a driver value is kept,
    an integer kind becomes an int64, a slice of anything but bytes is
    refused. *)
Definition ConvertValue (v : any) : result any :=
  if IsValue v then Ok v
  else match v with
       | of_int i => Ok (of_int64 i)
       | _ => Err (driver_error v)
       end.

(** *** Payload types *)

#[export] Instance bool_GoType : GoType bool := {|
  static_type := bool_t;
  zero := false;
  box := of_bool;
  assert x := match x with of_bool b => (b, true) | _ => (false, false) end
|}.

#[export] Instance bool_Reflect : Reflect bool := Bool.eqb.

#[export] Instance bool_Marshal : Marshal bool :=
  fun b => Ok (if b then "true" else "false").

#[export] Instance bool_Unmarshal : Unmarshal bool :=
  fun data =>
    let s := trim data in
    if String.eqb s "true" then Ok true
    else if String.eqb s "false" then Ok false
    else if String.eqb s "null" then Ok false
    else Err (json_error data bool_t).

(** Go's [int], which the SQL driver widens to int64. *)
Inductive int : Type := int_of (i : Z).

#[export] Instance int_GoType : GoType int := {|
  static_type := int_t;
  zero := int_of 0;
  box i := match i with int_of z => of_int z end;
  assert x := match x with of_int z => (int_of z, true) | _ => (int_of 0, false) end
|}.

#[export] Instance int64_GoType : GoType int64 := {|
  static_type := int64_t;
  zero := 0%Z;
  box := of_int64;
  assert x := match x with of_int64 i => (i, true) | _ => (0%Z, false) end
|}.

#[export] Instance int64_Reflect : Reflect int64 := Z.eqb.

Definition int64_String (i : int64) : string :=
  NilZero.string_of_int (Z.to_int i).

(** The value of a run of decimal digits. *)
Definition digit (c : ascii) : option Z :=
  let n := nat_of_ascii c in
  if andb (48 <=? n)%nat (n <=? 57)%nat then Some (Z.of_nat (n - 48)) else None.

Fixpoint digits (s : string) (acc : Z) : option Z :=
  match s with
  | EmptyString => Some acc
  | String c rest =>
      match digit c with
      | Some d => digits rest (10 * acc + d)%Z
      | None => None
      end
  end.

(** A JSON number that is an integer literal: an optional minus sign, then
    0 or a run of digits that does not start with 0. *)
Definition natural (s : string) : option Z :=
  match s with
  | EmptyString => None
  | String "0" EmptyString => Some 0%Z
  | String "0" _ => None
  | _ => digits s 0
  end.

Definition integer (s : string) : option Z :=
  match s with
  | String "-" rest => option_map Z.opp (natural rest)
  | _ => natural s
  end.

Definition in_int64 (z : Z) : bool :=
  andb (- 2 ^ 63 <=? z)%Z (z <? 2 ^ 63)%Z.

(** One JSON value decoded into an int64: null leaves the zero value, an
    integer literal in range is stored, anything else is an error. *)
Definition int64_element (s : string) : option int64 :=
  if String.eqb s "null" then Some 0%Z
  else match integer s with
       | Some z => if in_int64 z then Some z else None
       | None => None
       end.

#[export] Instance int64_Marshal : Marshal int64 :=
  fun i => Ok (int64_String i).

#[export] Instance int64_Unmarshal : Unmarshal int64 :=
  fun data =>
    match int64_element (trim data) with
    | Some i => Ok i
    | None => Err (json_error data int64_t)
    end.

#[export] Instance float64_GoType : GoType float64 := {|
  static_type := float64_t;
  zero := S754_zero false;
  box := of_float64;
  assert x :=
    match x with of_float64 f => (f, true) | _ => (S754_zero false, false) end
|}.

(** [math.IsNaN]. *)
Definition IsNaN (f : float64) : bool :=
  match f with
  | S754_nan => true
  | _ => false
  end.

(** Floats are deeply equal when Go's == holds: a NaN equals nothing. *)
#[export] Instance float64_Reflect : Reflect float64 := SFeqb.

#[export] Instance string_GoType : GoType string := {|
  static_type := string_t;
  zero := "";
  box := of_string;
  assert x := match x with of_string s => (s, true) | _ => ("", false) end
|}.

#[export] Instance string_Reflect : Reflect string := String.eqb.

(** [[]int64]. *)
Definition int64s := slice int64.

#[export] Instance int64s_GoType : GoType int64s := {|
  static_type := slice_t int64_t;
  zero := None;
  box := of_int64s;
  assert x := match x with of_int64s s => (s, true) | _ => (None, false) end
|}.

Fixpoint int64s_eqb (x y : list int64) : bool :=
  match x, y with
  | [], [] => true
  | a :: x', b :: y' => andb (Z.eqb a b) (int64s_eqb x' y')
  | _, _ => false
  end.

(** Slices are deeply equal when both are nil or both are not, and they have
    the same length and deeply equal elements. *)
#[export] Instance int64s_Reflect : Reflect int64s :=
  fun x y =>
    match x, y with
    | None, None => true
    | Some a, Some b => int64s_eqb a b
    | _, _ => false
    end.

Fixpoint join (sep : string) (l : list string) : string :=
  match l with
  | [] => ""
  | [a] => a
  | a :: rest => a ++ sep ++ join sep rest
  end.

(** A nil slice encodes as null, another one as a JSON array. *)
#[export] Instance int64s_Marshal : Marshal int64s :=
  fun s =>
    match s with
    | None => Ok "null"
    | Some l => Ok ("[" ++ join "," (map int64_String l) ++ "]")
    end.

(** The pieces of a string between its commas. *)
Fixpoint split_commas (s : string) : list string :=
  match s with
  | EmptyString => [""]
  | String c rest =>
      if Ascii.eqb c "," then "" :: split_commas rest
      else match split_commas rest with
           | piece :: pieces => String c piece :: pieces
           | [] => [String c ""]
           end
  end.

Fixpoint int64_elements (pieces : list string) : option (list int64) :=
  match pieces with
  | [] => Some []
  | piece :: rest =>
      match int64_element (trim piece), int64_elements rest with
      | Some i, Some l => Some (i :: l)
      | _, _ => None
      end
  end.

(** The inside of a JSON array of integers: [[]] is the empty array. *)
Definition int64_array (s : string) : option (list int64) :=
  match trim s with
  | String "[" rest =>
      match rev_onto rest "" with
      | String "]" inner =>
          let inner := rev_onto inner "" in
          if String.eqb (trim inner) "" then Some []
          else int64_elements (split_commas inner)
      | _ => None
      end
  | _ => None
  end.

#[export] Instance int64s_Unmarshal : Unmarshal int64s :=
  fun data =>
    if is_null data then Ok None
    else match int64_array data with
         | Some l => Ok (Some l)
         | None => Err (json_error data (slice_t int64_t))
         end.

(** The empty interface: every value converts to itself, and the type
    assertion fails on nil only. *)
#[export] Instance any_GoType : GoType any := {|
  static_type := interface_t;
  zero := Nil;
  box x := x;
  assert x := match x with Nil => (Nil, false) | _ => (x, true) end
|}.

(** [fmt.Stringer]: of the values above, a [time.Time] has a [String]
    method. *)
Inductive fmt_Stringer : Type :=
| nil_Stringer
| Stringer_of_Time (t : time_Time).

#[export] Instance fmt_Stringer_GoType : GoType fmt_Stringer := {|
  static_type := fmt_Stringer_t;
  zero := nil_Stringer;
  box x := match x with nil_Stringer => Nil | Stringer_of_Time t => of_Time t end;
  assert x :=
    match x with
    | of_Time t => (Stringer_of_Time t, true)
    | _ => (nil_Stringer, false)
    end
|}.

(** No JSON value but null decodes into an interface that has methods. *)
#[export] Instance fmt_Stringer_Unmarshal : Unmarshal fmt_Stringer :=
  fun data =>
    if is_null data then Ok nil_Stringer
    else Err (json_error data fmt_Stringer_t).

(** *** Package fmt *)

(** [fmt.Sprintf] on operands already rendered by their verbs: the text of
    the format, each verb (a percent sign, flags, a letter) replaced by the
    next operand. *)
Fixpoint Sprintf_from (in_verb : bool) (format : string) (a : list string)
  : string :=
  match format with
  | EmptyString => ""
  | String c rest =>
      if in_verb then
        if Ascii.eqb c "#" then Sprintf_from true rest a
        else match a with
             | x :: a' => x ++ Sprintf_from false rest a'
             | [] => "%!" ++ String c "(MISSING)" ++ Sprintf_from false rest []
             end
      else if Ascii.eqb c "%" then Sprintf_from true rest a
      else String c (Sprintf_from false rest a)
  end.

Definition Sprintf (format : string) (a : list string) : string :=
  Sprintf_from false format a.

(** What [fmt.Sprint] (the verb %v) and the verb %#v print for a [T]. *)
Class Sprinter (T : Type) : Type :=
  Sprint : T -> string.

Class GoSyntax (T : Type) : Type :=
  Sprint_GoSyntax : T -> string.

#[export] Instance bool_Sprinter : Sprinter bool :=
  fun b => if b then "true" else "false".

#[export] Instance bool_GoSyntax : GoSyntax bool :=
  fun b => if b then "true" else "false".

#[export] Instance int_Sprinter : Sprinter int :=
  fun i => match i with int_of z => int64_String z end.

#[export] Instance int_GoSyntax : GoSyntax int :=
  fun i => match i with int_of z => int64_String z end.

#[export] Instance int64_Sprinter : Sprinter int64 := int64_String.

#[export] Instance int64_GoSyntax : GoSyntax int64 := int64_String.

#[export] Instance string_Sprinter : Sprinter string := fun s => s.

End Go.

(** ** options.go *)
Module options.
Import Go.

(** [Option[T]] represents an optional value of type [T].
    invariant: !present => value == <zero value of T> *)
Record Option (T : Type) : Type := mkOption {
  value : T;
  present : bool
}.
Arguments mkOption {T} value present.
Arguments value {T} o.
Arguments present {T} o.

Section Methods.
Context {T : Type} `{GoType T}.

Definition New (v : T) : Option T :=
  {| value := v; present := true |}.

(** The composite literal [Option[T]{}]: every field has its zero value. *)
Definition None : Option T :=
  {| value := zero; present := false |}.

Definition FromPointer (ptr : pointer T) : Option T :=
  match ptr with
  | nil => None
  | addr v => New v
  end.

Definition FromTuple (v : T) (present : bool) : Option T :=
  if present then New v else None.

Definition IsPresent (o : Option T) : bool := present o.

Definition IsNone (o : Option T) : bool := negb (present o).

Definition Unwrap (o : Option T) : outcome T :=
  if present o then Return (value o)
  else Panic (Errorf "Option[%T].Unwrap: unwrapping None value"
                     [arg (box (value o))]).

Definition UnwrapOr (o : Option T) (defaultValue : T) : T :=
  if present o then value o else defaultValue.

Definition UnwrapOrZero (o : Option T) : T := value o.

(** [&o.value], or nil.  The method and the free function of this name are
    the same function. *)
Definition Pointer (o : Option T) : pointer T :=
  if present o then addr (value o) else nil.

(** An assignment [*p = v] made right after [p := o.Pointer()], with no call
    on [o] in between: the pointer aliases the field [value] of [o], and
    there is nothing to assign to when it is nil.  This is a statement of
    the caller, not a function of the package. *)
Definition store (o : Option T) (v : T) : option (Option T) :=
  match Pointer o with
  | addr _ => Some {| value := v; present := present o |}
  | nil => Datatypes.None
  end.

Definition MarshalJSON `{Marshal T} (o : Option T) : result string :=
  json_Marshal (Pointer o).

(** The receiver [o] is a pointer: the method returns the receiver after the
    call next to its result. *)
Definition UnmarshalJSON `{Unmarshal T} (o : Option T) (bytes : string)
  : Option T * option error :=
  match json_Unmarshal bytes with
  | Err err =>
      (o, Some (Errorf "Option[%T].UnmarshalJSON: %w"
                       [arg (box (value o)); wrapped err]))
  | Ok p => (FromPointer p, Datatypes.None)
  end.

Definition Value (o : Option T) : result any :=
  if present o then Ok (box (value o)) else Ok Nil.

Definition Scan (o : Option T) (src : any) : Option T * option error :=
  match src with
  | Nil => (None, Datatypes.None)
  | _ =>
      match ConvertValue src with
      | Err err =>
          (o, Some (Errorf
                      "Option[%T].Scan: failed to convert value from SQL driver: %w"
                      [arg (box (value o)); wrapped err]))
      | Ok av =>
          let (v, ok) := assert av in
          if negb ok then
            (o, Some (Errorf
                        "Option[%T].Scan: failed to convert value %#v to type %T"
                        [arg (box (value o)); arg av;
                         arg (box (value o))]))
          else (New v, Datatypes.None)
      end
  end.

Definition Equal `{Reflect T} (o other : Option T) : bool :=
  if negb (Bool.eqb (present o) (present other)) then false
  else if negb (present o) then true
  else DeepEqual (value o) (value other).

End Methods.

Arguments None {T _}, T {_}.

(** [f] runs in the state of the variables it captured; [Map] passes that
    state on. *)
Definition Map {S A B : Type} `{GoType B} (o : Option A) (f : func S A B)
  : S -> Option B * S :=
  if present o then bind (f (value o)) (fun b => ret (New b))
  else ret None.

(** The options a program can hold: the zero value of the type, the results
    of the constructors and of [Map], the receiver after [UnmarshalJSON] or
    [Scan], and an option whose payload was assigned through [Pointer]. *)
Inductive Constructed : forall {T : Type} `{GoType T}, Option T -> Prop :=
| C_None T `{GoType T} :
    Constructed (None T)
| C_New T `{GoType T} (v : T) :
    Constructed (New v)
| C_FromPointer T `{GoType T} (ptr : pointer T) :
    Constructed (FromPointer ptr)
| C_FromTuple T `{GoType T} (v : T) (ok : bool) :
    Constructed (FromTuple v ok)
| C_Map S A B `{GoType A} `{GoType B} (o : Option A) (f : func S A B) (s : S) :
    Constructed o -> Constructed (fst (Map o f s))
| C_UnmarshalJSON T `{GoType T} `{Unmarshal T} (o : Option T) (bytes : string) :
    Constructed o -> Constructed (fst (UnmarshalJSON o bytes))
| C_Scan T `{GoType T} (o : Option T) (src : any) :
    Constructed o -> Constructed (fst (Scan o src))
| C_store T `{GoType T} (o o' : Option T) (v : T) :
    Constructed o -> store o v = Some o' -> Constructed o'.

(** The invariant of the struct. *)
Definition invariant {T : Type} `{GoType T} (o : Option T) : Prop :=
  present o = false -> value o = zero.

Section Formatting.
Context {T : Type} `{GoType T}.

Definition String `{Sprinter T} (o : Option T) : string :=
  if present o then Sprint (value o) else "".

Definition GoString `{GoSyntax T} (o : Option T) : string :=
  if present o then Sprintf "options.New(%#v)" [Sprint_GoSyntax (value o)]
  else Sprintf "options.None[%T]()" [Sprint_T (box (value o))].

End Formatting.

End options.

Import Go options.

(** ** Specification devices *)

(** A pure function instrumented with a counter of its calls. *)
Definition counted {A B : Type} (f : A -> B) : func nat A B :=
  fun a calls => (f a, S calls).

(** The payload types for which the verb %T, applied to a payload, prints
    the payload type: the conversion to an interface value records the
    static type. *)
Definition names_its_type (T : Type) `{GoType T} : Prop :=
  forall v : T, Sprint_T (box v) = type_String static_type.

(** The payload types the SQL driver hands over as they are: a payload,
    converted to an interface value, is a non-nil driver value, and the
    type assertion gives it back. *)
Definition driver_type (T : Type) `{GoType T} : Prop :=
  forall v : T,
    box v <> Nil /\ IsValue (box v) = true /\ assert (box v) = (v, true).

(** The type assertion hands out the value it was given: what it returns
    converts back to the asserted interface value. *)
Definition assertion_sound (T : Type) `{GoType T} : Prop :=
  forall (x : any) (v : T), assert x = (v, true) -> box v = x.

(** The payload types on which reflect.DeepEqual decides equality. *)
Definition DeepEqual_decides (T : Type) `{Reflect T} : Prop :=
  forall a b : T, DeepEqual a b = true <-> a = b.

(** encoding/json writes the value [v] and reads what it wrote back as
    [v]: the payload is representable. *)
Definition json_faithful {T : Type} `{Marshal T} `{Unmarshal T} (v : T)
  : Prop :=
  exists data, json_encode v = Ok data /\ json_decode data = Ok v.

(** encoding/json writes the value [v] as the literal null. *)
Definition encodes_as_null {T : Type} `{Marshal T} (v : T) : Prop :=
  exists data, json_encode v = Ok data /\ is_null data = true.

(** A text without JSON white space. *)
Fixpoint no_space (s : string) : bool :=
  match s with
  | EmptyString => true
  | String.String c rest => andb (negb (is_space c)) (no_space rest)
  end.

(** A text without a comma. *)
Fixpoint no_comma (s : string) : bool :=
  match s with
  | EmptyString => true
  | String.String c rest => andb (negb (Ascii.eqb c ",")) (no_comma rest)
  end.

(** ** The tests of options_test.go *)

Example TestEqual :
  Equal (New true) (New true) = true
  /\ Equal (New 3%Z) (New 3%Z) = true
  /\ Equal (New 3%Z) (New 1%Z) = false
  /\ Equal (New 3%Z) (None int64) = false
  /\ Equal (None int64) (None int64) = true
  /\ Equal (None int64) (New 3%Z) = false
  /\ Equal (New "hello") (New "hello") = true.
Proof. repeat split. Qed.

Example TestJSONUnmarshal :
  UnmarshalJSON (None int64) "3" = (New 3%Z, Datatypes.None)
  /\ UnmarshalJSON (None int64s) "null" = (None int64s, Datatypes.None)
  /\ UnmarshalJSON (None int64s) "[1,2]" = (New (Some [1; 2]%Z), Datatypes.None).
Proof. repeat split. Qed.

Example TestSQLScan :
  Scan (None string) (of_string "hello") = (New "hello", Datatypes.None)
  /\ Scan (New "hello") Nil = (None string, Datatypes.None).
Proof. repeat split. Qed.

(** ** The invariant *)

Lemma New_invariant {T : Type} `{GoType T} (v : T) : invariant (New v).
Proof. unfold invariant; simpl; discriminate. Qed.

Lemma None_invariant {T : Type} `{GoType T} : invariant (None T).
Proof. unfold invariant; reflexivity. Qed.

Lemma FromPointer_invariant {T : Type} `{GoType T} (ptr : pointer T) :
  invariant (FromPointer ptr).
Proof. destruct ptr; [apply None_invariant | apply New_invariant]. Qed.

Create HintDb options.
#[local] Hint Resolve New_invariant None_invariant FromPointer_invariant
  : options.

(** Every operation that yields an option yields one with the invariant,
    when its receiver or argument has it. *)
Lemma Map_invariant {S A B : Type} `{GoType B}
  (o : Option A) (f : func S A B) (s : S) :
  invariant (fst (Map o f s)).
Proof.
  unfold Map, bind, ret.
  destruct (present o); [destruct (f (value o) s) |]; simpl;
    auto with options.
Qed.

Lemma UnmarshalJSON_invariant {T : Type} `{GoType T} `{Unmarshal T}
  (o : Option T) (bytes : string) :
  invariant o -> invariant (fst (UnmarshalJSON o bytes)).
Proof.
  intros Ho. unfold UnmarshalJSON.
  destruct (json_Unmarshal bytes); simpl; auto with options.
Qed.

Lemma Scan_invariant {T : Type} `{GoType T} (o : Option T) (src : any) :
  invariant o -> invariant (fst (Scan o src)).
Proof.
  intros Ho. unfold Scan.
  destruct src; try apply None_invariant;
    (destruct (ConvertValue _) as [av | err]; [| exact Ho]);
    destruct (assert av) as [v []]; simpl; auto with options.
Qed.

Lemma store_invariant {T : Type} `{GoType T} (o o' : Option T) (v : T) :
  store o v = Some o' -> invariant o'.
Proof.
  unfold store, Pointer.
  destruct (present o) eqn:Hp; [| discriminate].
  intros [= <-]. unfold invariant; simpl. discriminate.
Qed.

Lemma Constructed_invariant {T : Type} `{GoType T} (o : Option T) :
  Constructed o -> invariant o.
Proof.
  induction 1.
  - apply None_invariant.
  - apply New_invariant.
  - apply FromPointer_invariant.
  - destruct ok; [apply New_invariant | apply None_invariant].
  - apply Map_invariant.
  - now apply UnmarshalJSON_invariant.
  - now apply Scan_invariant.
  - eapply store_invariant; eassumption.
Qed.

(** C1: an option built by New, None, FromPointer, FromTuple, Map,
    UnmarshalJSON or Scan (or changed through Pointer) whose present flag is
    false holds the zero value of its payload type. *)
Theorem invariant_of_constructed :
  forall (T : Type) (GT : GoType T) (o : Option T),
    Constructed o -> present o = false -> value o = zero.
Proof. intros T GT o Hc. exact (Constructed_invariant o Hc). Qed.

Lemma invariant_of_constructed_witness :
  let o := fst (Scan (fst (UnmarshalJSON (New 7%Z) "null")) (of_string "x")) in
  Constructed o /\ present o = false /\ value o = 0%Z.
Proof.
  intro o.
  assert (Hc : Constructed o) by (apply C_Scan, C_UnmarshalJSON, C_New).
  split; [exact Hc | split; [reflexivity |]].
  apply (invariant_of_constructed int64 int64_GoType o Hc). reflexivity.
Defined.

(** C2: on a constructed option UnwrapOrZero returns the wrapped value when
    the option is present and the zero value of the payload type when it is
    absent; it is a total function. *)
Theorem UnwrapOrZero_spec :
  forall (T : Type) (GT : GoType T) (o : Option T),
    Constructed o ->
    UnwrapOrZero o = if present o then value o else zero.
Proof.
  intros T GT o Hc. unfold UnwrapOrZero.
  destruct (present o) eqn:Hp; [reflexivity |].
  now apply Constructed_invariant.
Qed.

Lemma UnwrapOrZero_spec_witness :
  Constructed (FromTuple "stale" false)
  /\ UnwrapOrZero (FromTuple "stale" false) = "".
Proof.
  split; [apply C_FromTuple |].
  apply (UnwrapOrZero_spec string string_GoType (FromTuple "stale" false)).
  apply C_FromTuple.
Defined.

(** ** Extraction *)

(** C5: Unwrap returns the wrapped value of a present option and panics on
    an absent one, whatever its value field holds; it returns no value
    then. *)
Theorem Unwrap_spec :
  forall (T : Type) (GT : GoType T) (v : T),
    Unwrap (New v) = Return v
    /\ Unwrap (mkOption v true) = Return v
    /\ Unwrap (mkOption v false)
       = Panic (Errorf "Option[%T].Unwrap: unwrapping None value"
                       [arg (box v)])
    /\ Unwrap (None T)
       = Panic (Errorf "Option[%T].Unwrap: unwrapping None value"
                       [arg (box zero)]).
Proof. intros T GT v. repeat split. Qed.

Lemma Unwrap_absent_panics {T : Type} `{GoType T} (o : Option T) :
  present o = false -> exists e, Unwrap o = Panic e.
Proof. intros Hp. unfold Unwrap. rewrite Hp. eauto. Qed.

Lemma UnwrapOr_spec {T : Type} `{GoType T} (v d : T) :
  UnwrapOr (New v) d = v /\ UnwrapOr (None T) d = d.
Proof. split; reflexivity. Qed.

(** ** Map *)

(** C9: Map on an absent option yields the absent option and leaves the
    state of f as it was, so f was not called (an instrumented f counts no
    call); Map on New v calls f once, on v, and yields New of its result. *)
Theorem Map_short_circuit :
  forall (S A B : Type) (GB : GoType B) (f : func S A B) (s : S)
         (g : A -> B) (v : A),
    Map (mkOption v false) f s = (None B, s)
    /\ Map (New v) f s = (New (fst (f v s)), snd (f v s))
    /\ Map (mkOption v false) (counted g) 0 = (None B, 0)
    /\ Map (New v) (counted g) 0 = (New (g v), 1).
Proof.
  intros S A B GB f s g v. unfold Map, bind, ret; simpl.
  destruct (f v s); repeat split.
Qed.

(** ** Equality *)

(** C3: two absent options are equal, an absent and a present one are not,
    and two present ones are equal exactly when reflect.DeepEqual holds of
    their wrapped values. *)
Theorem Equal_spec :
  forall (T : Type) (R : Reflect T) (a b : Option T),
    Equal a b =
    match present a, present b with
    | false, false => true
    | true, true => DeepEqual (value a) (value b)
    | _, _ => false
    end.
Proof.
  intros T R a b. unfold Equal.
  destruct (present a), (present b); reflexivity.
Qed.

(** A present NaN is not equal to itself. *)
Lemma Equal_not_reflexive :
  Equal (New S754_nan) (New S754_nan) = false.
Proof. reflexivity. Qed.

(** C4, as the code has it: x.Equal(x) holds exactly when x is absent or
    reflect.DeepEqual holds of its wrapped value and itself; a present and
    an absent option are unequal in both orders. *)
Theorem Equal_reflexive_iff :
  forall (T : Type) (GT : GoType T) (R : Reflect T) (x : Option T) (v : T),
    (Equal x x = true <->
       present x = false \/ DeepEqual (value x) (value x) = true)
    /\ Equal (New v) (None T) = false
    /\ Equal (None T) (New v) = false.
Proof.
  intros T GT R x v. split; [| split; reflexivity].
  unfold Equal. rewrite Bool.eqb_reflx; simpl.
  destruct (present x); simpl; split; auto.
  intros [Hp | Hd]; [discriminate | exact Hd].
Qed.

(** The payloads with a reflexive DeepEqual. *)
Lemma int64s_eqb_refl (l : list int64) : int64s_eqb l l = true.
Proof.
  induction l as [| a l IH]; simpl; [reflexivity |].
  now rewrite Z.eqb_refl, IH.
Qed.

Lemma DeepEqual_refl_bool (v : bool) : DeepEqual v v = true.
Proof. destruct v; reflexivity. Qed.

Lemma DeepEqual_refl_int64 (v : int64) : DeepEqual v v = true.
Proof. apply Z.eqb_refl. Qed.

Lemma DeepEqual_refl_string (v : string) : DeepEqual v v = true.
Proof. apply String.eqb_refl. Qed.

Lemma DeepEqual_refl_int64s (v : int64s) : DeepEqual v v = true.
Proof. destruct v as [l |]; [apply int64s_eqb_refl | reflexivity]. Qed.

(** A float64 is deeply equal to itself unless it is a NaN. *)
Lemma DeepEqual_refl_float64 (v : float64) :
  DeepEqual v v = negb (IsNaN v).
Proof.
  destruct v as [s | s | | s m e]; try reflexivity;
    try (destruct s; reflexivity).
  unfold DeepEqual, float64_Reflect, SFeqb, SFcompare.
  destruct s; simpl; rewrite Z.compare_refl, Pos.compare_cont_refl;
    reflexivity.
Qed.

(** ** The JSON adapter *)

Lemma MarshalJSON_spec {T : Type} `{GoType T} `{Marshal T} (v : T) :
  MarshalJSON (None T) = Ok "null" /\ MarshalJSON (New v) = json_encode v.
Proof. split; reflexivity. Qed.

(** Decoding null yields the absent option, whatever the receiver held. *)
Lemma UnmarshalJSON_null {T : Type} `{GoType T} `{Unmarshal T}
  (o : Option T) (bytes : string) :
  is_null bytes = true ->
  UnmarshalJSON o bytes = (None T, Datatypes.None).
Proof.
  intros Hn. unfold UnmarshalJSON, json_Unmarshal. now rewrite Hn.
Qed.

(** Decoding another input that encoding/json accepts for [T] yields the
    present option of the decoded value. *)
Lemma UnmarshalJSON_decoded {T : Type} `{GoType T} `{Unmarshal T}
  (o : Option T) (bytes : string) (v : T) :
  is_null bytes = false -> json_decode bytes = Ok v ->
  UnmarshalJSON o bytes = (New v, Datatypes.None).
Proof.
  intros Hn Hd. unfold UnmarshalJSON, json_Unmarshal. now rewrite Hn, Hd.
Qed.

(** Decoding an input that encoding/json refuses for [T] returns an error
    that wraps the one of encoding/json; its operand for the verb %T is the
    value field of the receiver. *)
Lemma UnmarshalJSON_refused {T : Type} `{GoType T} `{Unmarshal T}
  (o : Option T) (bytes : string) (err : error) :
  is_null bytes = false -> json_decode bytes = Err err ->
  exists e,
    UnmarshalJSON o bytes = (o, Some e)
    /\ e = Errorf "Option[%T].UnmarshalJSON: %w"
                  [arg (box (value o)); wrapped err]
    /\ Go.Unwrap e = Some err.
Proof.
  intros Hn Hd. unfold UnmarshalJSON, json_Unmarshal. rewrite Hn, Hd.
  eexists; repeat split.
Qed.

(** The verb %T names the payload type when that type is not an interface
    type. *)
Lemma names_its_type_bool : names_its_type bool.
Proof. intros v; reflexivity. Qed.

Lemma names_its_type_int : names_its_type int.
Proof. intros [z]; reflexivity. Qed.

Lemma names_its_type_int64 : names_its_type int64.
Proof. intros v; reflexivity. Qed.

Lemma names_its_type_float64 : names_its_type float64.
Proof. intros v; reflexivity. Qed.

Lemma names_its_type_string : names_its_type string.
Proof. intros v; reflexivity. Qed.

Lemma names_its_type_int64s : names_its_type int64s.
Proof. intros v; reflexivity. Qed.

(** It names the dynamic type of the payload, or <nil>, when the payload
    type is an interface type. *)
Lemma interface_payload_not_named :
  ~ names_its_type any /\ ~ names_its_type fmt_Stringer.
Proof.
  split; intros Hn.
  - specialize (Hn Nil). discriminate Hn.
  - specialize (Hn nil_Stringer). discriminate Hn.
Qed.

(** C7, at an option of an interface type: the error of UnmarshalJSON wraps
    the error of encoding/json, and the type its message names is the
    dynamic type of the receiver's value field, <nil> here, not the payload
    type fmt.Stringer. *)
Theorem UnmarshalJSON_names_dynamic_type :
  UnmarshalJSON (None fmt_Stringer) "3"
  = (None fmt_Stringer,
     Some (Errorf "Option[%T].UnmarshalJSON: %w"
                  [arg Nil; wrapped (json_error "3" fmt_Stringer_t)]))
  /\ Sprint_T Nil = "<nil>"
  /\ type_String (@static_type fmt_Stringer _) = "fmt.Stringer".
Proof. repeat split. Qed.

(** A present nil slice encodes as null, and null decodes as the absent
    option. *)
Lemma nil_slice_round_trip :
  MarshalJSON (New (Datatypes.None : int64s)) = Ok "null"
  /\ UnmarshalJSON (None int64s) "null" = (None int64s, Datatypes.None)
  /\ Equal (None int64s) (New (Datatypes.None : int64s)) = false.
Proof. repeat split. Qed.

(** The absent option and a bool make the round trip. *)
Lemma bool_round_trip (x r : Option bool) :
  Constructed x ->
  exists data,
    MarshalJSON x = Ok data /\ UnmarshalJSON r data = (x, Datatypes.None).
Proof.
  intros Hc. pose proof (Constructed_invariant x Hc) as Hinv.
  destruct x as [v p]; unfold invariant in Hinv; simpl in *.
  destruct p.
  - destruct v; eexists; split; reflexivity.
  - rewrite (Hinv eq_refl). eexists; split; reflexivity.
Qed.

(** ** The SQL adapter *)

Lemma Value_spec {T : Type} `{GoType T} (v : T) :
  Value (None T) = Ok Nil /\ Value (New v) = Ok (box v).
Proof. split; reflexivity. Qed.

(** A nil source yields the absent option and no error. *)
Lemma Scan_nil {T : Type} `{GoType T} (o : Option T) :
  Scan o Nil = (None T, Datatypes.None).
Proof. reflexivity. Qed.

(** A source the driver cannot convert leaves an error that wraps the one of
    the driver. *)
Lemma Scan_not_converted {T : Type} `{GoType T}
  (o : Option T) (src : any) (err : error) :
  src <> Nil -> ConvertValue src = Err err ->
  exists e,
    Scan o src = (o, Some e)
    /\ e = Errorf
             "Option[%T].Scan: failed to convert value from SQL driver: %w"
             [arg (box (value o)); wrapped err]
    /\ Go.Unwrap e = Some err.
Proof.
  intros Hs Hc. unfold Scan. rewrite Hc.
  destruct src; [congruence | ..]; eexists; repeat split.
Qed.

(** A converted value that is not a [T] leaves an error whose operands are
    the value field of the receiver, for the verb %T, and the converted
    value. *)
Lemma Scan_not_asserted {T : Type} `{GoType T}
  (o : Option T) (src av : any) (v : T) :
  src <> Nil -> ConvertValue src = Ok av -> assert av = (v, false) ->
  Scan o src
  = (o, Some (Errorf
                "Option[%T].Scan: failed to convert value %#v to type %T"
                [arg (box (value o)); arg av; arg (box (value o))])).
Proof.
  intros Hs Hc Ha. unfold Scan. rewrite Hc, Ha.
  destruct src; [congruence | ..]; reflexivity.
Qed.

(** A converted value that is a [T] yields the present option of it. *)
Lemma Scan_asserted {T : Type} `{GoType T}
  (o : Option T) (src av : any) (v : T) :
  src <> Nil -> ConvertValue src = Ok av -> assert av = (v, true) ->
  Scan o src = (New v, Datatypes.None).
Proof.
  intros Hs Hc Ha. unfold Scan. rewrite Hc, Ha.
  destruct src; [congruence | ..]; reflexivity.
Qed.

(** The conversion comes first: a Go int is widened to int64, which is not
    an int any more. *)
Example Scan_int :
  Scan (None int) (of_int 3%Z)
  = (None int,
     Some (Errorf "Option[%T].Scan: failed to convert value %#v to type %T"
                  [arg (of_int 0%Z); arg (of_int64 3%Z); arg (of_int 0%Z)])).
Proof. reflexivity. Qed.

(** C8, at an option of an interface type: scanning an int64 into an
    Option[fmt.Stringer] fails in the type assertion, and the target type
    its error names is the dynamic type of the receiver's value field,
    <nil> here, not the payload type fmt.Stringer. *)
Theorem Scan_names_dynamic_type :
  Scan (None fmt_Stringer) (of_int64 3%Z)
  = (None fmt_Stringer,
     Some (Errorf "Option[%T].Scan: failed to convert value %#v to type %T"
                  [arg Nil; arg (of_int64 3%Z); arg Nil]))
  /\ Sprint_T Nil = "<nil>"
  /\ type_String (@static_type fmt_Stringer _) = "fmt.Stringer".
Proof. repeat split. Qed.

(** ** Errors and the receiver *)

(** C10: when UnmarshalJSON or Scan returns an error, the receiver is as it
    was before the call. *)
Theorem error_leaves_receiver :
  forall (T : Type) (GT : GoType T) (U : Unmarshal T)
         (o o1 o2 : Option T) (bytes : string) (src : any) (e1 e2 : error),
    (UnmarshalJSON o bytes = (o1, Some e1) -> o1 = o)
    /\ (Scan o src = (o2, Some e2) -> o2 = o).
Proof.
  intros T GT U o o1 o2 bytes src e1 e2. split.
  - unfold UnmarshalJSON. destruct (json_Unmarshal bytes); intros [= <-];
      reflexivity.
  - unfold Scan. destruct src; try discriminate;
      (destruct (ConvertValue _) as [av | err];
       [destruct (assert av) as [v []]; simpl |]);
      intros [= <-]; reflexivity.
Qed.

Lemma error_leaves_receiver_witness :
  let o := New 5%Z in
  let r1 := UnmarshalJSON o "5x" in
  let r2 := Scan o (of_string "5") in
  snd r1 = Some (Errorf "Option[%T].UnmarshalJSON: %w"
                        [arg (of_int64 5%Z); wrapped (json_error "5x" int64_t)])
  /\ snd r2 = Some (Errorf
                      "Option[%T].Scan: failed to convert value %#v to type %T"
                      [arg (of_int64 5%Z); arg (of_string "5"); arg (of_int64 5%Z)])
  /\ fst r1 = o /\ fst r2 = o.
Proof.
  intros o r1 r2.
  split; [reflexivity | split; [reflexivity |]].
  destruct (error_leaves_receiver int64 _ _ o (fst r1) (fst r2) "5x"
              (of_string "5")
              (Errorf "Option[%T].UnmarshalJSON: %w"
                      [arg (of_int64 5%Z); wrapped (json_error "5x" int64_t)])
              (Errorf "Option[%T].Scan: failed to convert value %#v to type %T"
                      [arg (of_int64 5%Z); arg (of_string "5");
                       arg (of_int64 5%Z)]))
    as [H1 H2].
  split; [apply H1 | apply H2]; reflexivity.
Defined.

(** ** Further properties of the accessors *)

Lemma Constructed_absent {T : Type} `{GoType T} (o : Option T) :
  Constructed o -> present o = false -> o = None T.
Proof.
  intros Hc Hp. pose proof (Constructed_invariant o Hc Hp) as Hv.
  destruct o as [v p]; simpl in *. now subst.
Qed.

(** An option and the pointer view of it determine each other: FromPointer
    undoes Pointer on a constructed option, and Pointer undoes
    FromPointer. *)
Theorem FromPointer_Pointer :
  forall (T : Type) (GT : GoType T) (o : Option T),
    Constructed o ->
    FromPointer (Pointer o) = o
    /\ forall ptr : pointer T, Pointer (FromPointer ptr) = ptr.
Proof.
  intros T GT o Hc. split.
  - unfold Pointer. destruct (present o) eqn:Hp.
    + destruct o as [v p]; simpl in *. now subst.
    + simpl. symmetry. now apply Constructed_absent.
  - intros [| v]; reflexivity.
Qed.

Lemma FromPointer_Pointer_witness :
  let o := fst (Scan (New "kept") Nil) in
  Constructed o /\ FromPointer (Pointer o) = o.
Proof.
  intro o.
  assert (Hc : Constructed o) by apply C_Scan, C_New.
  split; [exact Hc |].
  exact (proj1 (FromPointer_Pointer string _ o Hc)).
Defined.

(** A constructed option is rebuilt by FromTuple from what UnwrapOrZero and
    IsPresent report of it; a false flag makes FromTuple drop its value. *)
Theorem FromTuple_of_accessors :
  forall (T : Type) (GT : GoType T) (o : Option T),
    Constructed o ->
    FromTuple (UnwrapOrZero o) (IsPresent o) = o
    /\ forall v : T, FromTuple v false = None T.
Proof.
  intros T GT o Hc. split; [| reflexivity].
  unfold FromTuple, UnwrapOrZero, IsPresent.
  destruct (present o) eqn:Hp.
  - destruct o as [v p]; simpl in *. now subst.
  - symmetry. now apply Constructed_absent.
Qed.

Lemma FromTuple_of_accessors_witness :
  let o := FromTuple 9%Z false in
  Constructed o /\ FromTuple (UnwrapOrZero o) (IsPresent o) = o.
Proof.
  intro o.
  assert (Hc : Constructed o) by apply C_FromTuple.
  split; [exact Hc |].
  exact (proj1 (FromTuple_of_accessors int64 _ o Hc)).
Defined.

(** The three views of presence agree: IsPresent holds exactly when Unwrap
    returns and exactly when Pointer is not nil, and IsNone is its
    negation. *)
Theorem presence_views :
  forall (T : Type) (GT : GoType T) (o : Option T),
    (IsPresent o = true <-> exists v, Unwrap o = Return v)
    /\ (IsPresent o = true <-> Pointer o <> nil)
    /\ (IsNone o = true <-> exists e, Unwrap o = Panic e)
    /\ IsNone o = negb (IsPresent o).
Proof.
  intros T GT o. unfold IsPresent, IsNone, Unwrap, Pointer.
  destruct (present o); simpl; repeat split;
    try discriminate; eauto;
    try (intros [x Hx]; discriminate Hx);
    try (intros Hn; exfalso; now apply Hn).
Qed.

(** When Unwrap returns a value, UnwrapOr returns it whatever the default,
    UnwrapOrZero returns it, and Pointer points to it. *)
Theorem accessors_agree :
  forall (T : Type) (GT : GoType T) (o : Option T) (v d : T),
    Unwrap o = Return v ->
    UnwrapOr o d = v /\ UnwrapOrZero o = v /\ Pointer o = addr v.
Proof.
  intros T GT o v d. unfold Unwrap, UnwrapOr, UnwrapOrZero, Pointer.
  destruct (present o); [| discriminate].
  intros [= <-]. repeat split.
Qed.

Lemma accessors_agree_witness :
  Unwrap (New 42%Z) = Return 42%Z
  /\ UnwrapOr (New 42%Z) (-1)%Z = 42%Z
  /\ UnwrapOrZero (New 42%Z) = 42%Z
  /\ Pointer (New 42%Z) = addr 42%Z.
Proof.
  split; [reflexivity |].
  apply (accessors_agree int64 _ (New 42%Z) 42%Z (-1)%Z). reflexivity.
Defined.

(** On a constructed option UnwrapOrZero is UnwrapOr with the zero value as
    the default. *)
Theorem UnwrapOr_zero :
  forall (T : Type) (GT : GoType T) (o : Option T),
    Constructed o -> UnwrapOr o zero = UnwrapOrZero o.
Proof.
  intros T GT o Hc. unfold UnwrapOr, UnwrapOrZero.
  destruct (present o) eqn:Hp; [reflexivity |].
  symmetry. now apply Constructed_invariant.
Qed.

Lemma UnwrapOr_zero_witness :
  let o := fst (UnmarshalJSON (New true) "null") in
  Constructed o /\ UnwrapOr o false = UnwrapOrZero o.
Proof.
  intro o.
  assert (Hc : Constructed o) by apply C_UnmarshalJSON, C_New.
  split; [exact Hc |].
  exact (UnwrapOr_zero bool _ o Hc).
Defined.

(** ** Further properties of the SQL adapter *)

Lemma driver_type_bool : driver_type bool.
Proof. intros v; repeat split; discriminate. Qed.

Lemma driver_type_int64 : driver_type int64.
Proof. intros v; repeat split; discriminate. Qed.

Lemma driver_type_float64 : driver_type float64.
Proof. intros v; repeat split; discriminate. Qed.

Lemma driver_type_string : driver_type string.
Proof. intros v; repeat split; discriminate. Qed.

Lemma assertion_sound_bool : assertion_sound bool.
Proof. intros [] v; simpl; intros [= <-]; reflexivity. Qed.

Lemma assertion_sound_int : assertion_sound int.
Proof. intros [] v; simpl; intros [= <-]; reflexivity. Qed.

Lemma assertion_sound_int64 : assertion_sound int64.
Proof. intros [] v; simpl; intros [= <-]; reflexivity. Qed.

Lemma assertion_sound_float64 : assertion_sound float64.
Proof. intros [] v; simpl; intros [= <-]; reflexivity. Qed.

Lemma assertion_sound_string : assertion_sound string.
Proof. intros [] v; simpl; intros [= <-]; reflexivity. Qed.

Lemma assertion_sound_int64s : assertion_sound int64s.
Proof. intros [] v; simpl; intros [= <-]; reflexivity. Qed.

Lemma assertion_sound_any : assertion_sound any.
Proof. intros [] v; simpl; intros [= <-]; reflexivity. Qed.

Lemma assertion_sound_fmt_Stringer : assertion_sound fmt_Stringer.
Proof. intros [] v; simpl; intros [= <-]; reflexivity. Qed.

(** The value ConvertValue returns is a driver value, and a driver value is
    converted to itself. *)
Lemma ConvertValue_IsValue (src av : any) :
  ConvertValue src = Ok av -> IsValue av = true.
Proof.
  unfold ConvertValue. destruct src; simpl; intros [= <-]; reflexivity.
Qed.

Lemma ConvertValue_of_value (v : any) :
  IsValue v = true -> ConvertValue v = Ok v.
Proof. intros Hv. unfold ConvertValue. now rewrite Hv. Qed.

(** Binding then scanning: for a payload type the driver hands over as it
    is, scanning the value that Value binds for a constructed option
    yields that option, whatever the receiver held. *)
Theorem Scan_of_Value :
  forall (T : Type) (GT : GoType T) (x r : Option T),
    driver_type T -> Constructed x ->
    exists av, Value x = Ok av /\ Scan r av = (x, Datatypes.None).
Proof.
  intros T GT x r Hd Hc. unfold Value.
  destruct (present x) eqn:Hp.
  - destruct x as [v p]; simpl in *; subst p.
    destruct (Hd v) as [Hn [Hv Ha]].
    exists (box v). split; [reflexivity |].
    unfold Scan. rewrite (ConvertValue_of_value _ Hv), Ha.
    destruct (box v); [congruence | ..]; reflexivity.
  - exists Nil. split; [reflexivity |].
    rewrite (Constructed_absent x Hc Hp). reflexivity.
Qed.

Lemma Scan_of_Value_witness :
  driver_type string
  /\ Constructed (New "hello")
  /\ exists av,
       Value (New "hello") = Ok av
       /\ Scan (New "stale") av = (New "hello", Datatypes.None).
Proof.
  split; [exact driver_type_string | split; [apply C_New |]].
  apply (Scan_of_Value string _ (New "hello") (New "stale")
           driver_type_string (C_New string "hello")).
Defined.

(** Scanning then binding: after a Scan without error, Value binds nil for
    a nil source and otherwise the value the driver converted the source
    to. *)
Theorem Value_of_Scan :
  forall (T : Type) (GT : GoType T) (o o' : Option T) (src : any),
    assertion_sound T ->
    Scan o src = (o', Datatypes.None) ->
    Value o' = match src with Nil => Ok Nil | _ => ConvertValue src end.
Proof.
  intros T GT o o' src Hs. unfold Scan.
  destruct src; try (intros [= <-]; reflexivity);
    (destruct (ConvertValue _) as [av | err] eqn:Hc; [| discriminate]);
    destruct (assert av) as [v ok] eqn:Ha; destruct ok; simpl;
    try discriminate;
    intros [= <-]; unfold Value; simpl; now rewrite (Hs av v Ha).
Qed.

Lemma Value_of_Scan_witness :
  assertion_sound int64
  /\ Scan (None int64) (of_int64 7%Z) = (New 7%Z, Datatypes.None)
  /\ Value (New 7%Z) = Ok (of_int64 7%Z).
Proof.
  split; [exact assertion_sound_int64 | split; [reflexivity |]].
  apply (Value_of_Scan int64 _ (None int64) (New 7%Z) (of_int64 7%Z)
           assertion_sound_int64 eq_refl).
Defined.

(** An Option[int] cannot be scanned: the driver hands over no int (it
    widens one to int64 first), so every source but nil leaves an error and
    the receiver as it was. *)
Theorem Scan_int_fails :
  forall (o : Option int) (src : any),
    src <> Nil -> exists e, Scan o src = (o, Some e).
Proof.
  intros o src Hs. unfold Scan.
  destruct src; [congruence | ..]; simpl; eauto.
Qed.

Lemma Scan_int_fails_witness :
  of_int 3%Z <> Nil
  /\ exists e, Scan (New (int_of 1%Z)) (of_int 3%Z)
               = (New (int_of 1%Z), Some e).
Proof.
  assert (Hs : of_int 3%Z <> Nil) by discriminate.
  split; [exact Hs |].
  apply (Scan_int_fails (New (int_of 1%Z)) (of_int 3%Z) Hs).
Defined.

(** After a Scan without error the receiver is absent exactly when the
    source was nil. *)
Theorem Scan_absent_iff_nil :
  forall (T : Type) (GT : GoType T) (o o' : Option T) (src : any),
    Scan o src = (o', Datatypes.None) ->
    (present o' = false <-> src = Nil).
Proof.
  intros T GT o o' src. unfold Scan.
  destruct src; try (intros [= <-]; split; reflexivity);
    (destruct (ConvertValue _) as [av | err]; [| discriminate]);
    destruct (assert av) as [v []]; simpl; try discriminate;
    intros [= <-]; simpl; split; discriminate.
Qed.

Lemma Scan_absent_iff_nil_witness :
  Scan (New true) Nil = (None bool, Datatypes.None)
  /\ (present (None bool) = false <-> @Nil = Nil).
Proof.
  split; [reflexivity |].
  apply (Scan_absent_iff_nil bool _ (New true) (None bool) Nil eq_refl).
Defined.

(** After an UnmarshalJSON without error the receiver is absent exactly
    when the input was the JSON null. *)
Theorem UnmarshalJSON_absent_iff_null :
  forall (T : Type) (GT : GoType T) (U : Unmarshal T)
         (o o' : Option T) (bytes : string),
    UnmarshalJSON o bytes = (o', Datatypes.None) ->
    (present o' = false <-> is_null bytes = true).
Proof.
  intros T GT U o o' bytes. unfold UnmarshalJSON, json_Unmarshal.
  destruct (is_null bytes).
  - intros [= <-]. split; reflexivity.
  - destruct (json_decode bytes); [| discriminate].
    intros [= <-]. simpl. split; discriminate.
Qed.

Lemma UnmarshalJSON_absent_iff_null_witness :
  UnmarshalJSON (None int64s) "[]"
  = (New (Some [] : int64s), Datatypes.None)
  /\ (present (New (Some [] : int64s)) = false <-> is_null "[]" = true).
Proof.
  assert (Hu : UnmarshalJSON (None int64s) "[]"
               = (New (Some [] : int64s), Datatypes.None)) by reflexivity.
  split; [exact Hu |].
  apply (UnmarshalJSON_absent_iff_null int64s _ _ (None int64s)
           (New (Some [] : int64s)) "[]" Hu).
Defined.

(** A call without error overwrites the receiver: what UnmarshalJSON and
    Scan leave in it depends on the input alone, not on what it held. *)
Theorem success_forgets_receiver :
  forall (T : Type) (GT : GoType T) (U : Unmarshal T)
         (o1 o2 : Option T) (bytes : string) (src : any),
    (snd (UnmarshalJSON o1 bytes) = Datatypes.None ->
       UnmarshalJSON o2 bytes = UnmarshalJSON o1 bytes)
    /\ (snd (Scan o1 src) = Datatypes.None -> Scan o2 src = Scan o1 src).
Proof.
  intros T GT U o1 o2 bytes src. split.
  - unfold UnmarshalJSON. destruct (json_Unmarshal bytes); simpl;
      [reflexivity | discriminate].
  - unfold Scan. destruct src; try reflexivity;
      (destruct (ConvertValue _) as [av | err]; [| discriminate]);
      destruct (assert av) as [v []]; simpl;
      first [reflexivity | discriminate].
Qed.

Lemma success_forgets_receiver_witness :
  snd (UnmarshalJSON (New 1%Z) "2") = Datatypes.None
  /\ snd (Scan (New 1%Z) (of_int64 2%Z)) = Datatypes.None
  /\ UnmarshalJSON (None int64) "2" = UnmarshalJSON (New 1%Z) "2"
  /\ Scan (None int64) (of_int64 2%Z) = Scan (New 1%Z) (of_int64 2%Z).
Proof.
  split; [reflexivity | split; [reflexivity |]].
  destruct (success_forgets_receiver int64 _ _ (New 1%Z) (None int64) "2"
              (of_int64 2%Z)) as [H1 H2].
  split; [apply H1 | apply H2]; reflexivity.
Defined.

(** ** Further properties of Map *)

(** Map keeps the presence flag, and two Maps in a row are one Map of the
    composed function, the state of the first function passed on to the
    second. *)
Theorem Map_compose :
  forall (S A B C : Type) (GB : GoType B) (GC : GoType C)
         (o : Option A) (f : func S A B) (g : func S B C) (s : S),
    present (fst (Map o f s)) = present o
    /\ Map (fst (Map o f s)) g (snd (Map o f s))
       = Map o (fun a => bind (f a) g) s.
Proof.
  intros S A B C GB GC o f g s. unfold Map, bind, ret.
  destruct (present o); simpl; [| split; reflexivity].
  destruct (f (value o) s) as [b s1]; simpl.
  destruct (g b s1); split; reflexivity.
Qed.

(** Map of the identity function gives back a constructed option and leaves
    the state alone. *)
Theorem Map_identity :
  forall (S A : Type) (GA : GoType A) (o : Option A) (s : S),
    Constructed o -> Map o (fun a s' => (a, s')) s = (o, s).
Proof.
  intros S A GA o s Hc. unfold Map, bind, ret.
  destruct (present o) eqn:Hp.
  - destruct o as [v p]; simpl in *. now subst.
  - now rewrite (Constructed_absent o Hc Hp).
Qed.

Lemma Map_identity_witness :
  Constructed (FromPointer (@nil string))
  /\ Map (FromPointer (@nil string)) (fun a s' => (a, s')) 0
     = (FromPointer (@nil string), 0).
Proof.
  split; [apply C_FromPointer |].
  apply (Map_identity nat string _ (FromPointer (@nil string)) 0).
  apply C_FromPointer.
Defined.

(** ** Further properties of Equal *)

Lemma DeepEqual_decides_bool : DeepEqual_decides bool.
Proof. intros a b. apply Bool.eqb_true_iff. Qed.

Lemma DeepEqual_decides_int64 : DeepEqual_decides int64.
Proof. intros a b. apply Z.eqb_eq. Qed.

Lemma DeepEqual_decides_string : DeepEqual_decides string.
Proof. intros a b. apply String.eqb_eq. Qed.

Lemma int64s_eqb_eq (x y : list int64) : int64s_eqb x y = true <-> x = y.
Proof.
  revert y. induction x as [| a x IH]; intros [| b y]; simpl;
    try (split; [discriminate | congruence]); [tauto |].
  rewrite Bool.andb_true_iff, Z.eqb_eq, IH.
  split; [intros [-> ->]; reflexivity | intros [= -> ->]; auto].
Qed.

Lemma DeepEqual_decides_int64s : DeepEqual_decides int64s.
Proof.
  intros [a |] [b |]; unfold DeepEqual, int64s_Reflect;
    try (split; [discriminate | congruence]); [| tauto].
  rewrite int64s_eqb_eq. split; [intros ->; reflexivity | congruence].
Qed.

(** Equal is an equivalence relation on the options of a payload type on
    which reflect.DeepEqual is one. *)
Theorem Equal_equivalence :
  forall (T : Type) (R : Reflect T),
    (forall a : T, DeepEqual a a = true) ->
    (forall a b : T, DeepEqual a b = true -> DeepEqual b a = true) ->
    (forall a b c : T,
       DeepEqual a b = true -> DeepEqual b c = true -> DeepEqual a c = true) ->
    (forall x : Option T, Equal x x = true)
    /\ (forall x y : Option T, Equal x y = true -> Equal y x = true)
    /\ (forall x y z : Option T,
          Equal x y = true -> Equal y z = true -> Equal x z = true).
Proof.
  intros T R Hrefl Hsym Htrans. unfold Equal. repeat split.
  - intros x. destruct (present x); simpl; auto.
  - intros x y. destruct (present x), (present y); simpl; auto.
  - intros x y z.
    destruct (present x), (present y), (present z); simpl; eauto;
      discriminate.
Qed.

Lemma Equal_equivalence_witness :
  (forall x : Option string, Equal x x = true)
  /\ (forall x y : Option string, Equal x y = true -> Equal y x = true)
  /\ (forall x y z : Option string,
        Equal x y = true -> Equal y z = true -> Equal x z = true).
Proof.
  apply (Equal_equivalence string _).
  - intros a. now apply DeepEqual_decides_string.
  - intros a b H. apply DeepEqual_decides_string.
    symmetry. now apply DeepEqual_decides_string.
  - intros a b c H1 H2. apply DeepEqual_decides_string.
    apply DeepEqual_decides_string in H1, H2. congruence.
Defined.

(** On constructed options of a payload type on which reflect.DeepEqual
    decides equality, Equal decides equality of the options (Go's ==). *)
Theorem Equal_iff_eq :
  forall (T : Type) (GT : GoType T) (R : Reflect T) (a b : Option T),
    DeepEqual_decides T -> Constructed a -> Constructed b ->
    (Equal a b = true <-> a = b).
Proof.
  intros T GT R a b Hd Ha Hb. unfold Equal.
  destruct (present a) eqn:Hpa, (present b) eqn:Hpb; simpl.
  - destruct a as [va pa], b as [vb pb]; simpl in *; subst.
    split.
    + intros He. apply Hd in He. now subst.
    + intros [= ->]. now apply Hd.
  - split; [discriminate | intros ->; congruence].
  - split; [discriminate | intros ->; congruence].
  - rewrite (Constructed_absent a Ha Hpa), (Constructed_absent b Hb Hpb).
    split; reflexivity.
Qed.

Lemma Equal_iff_eq_witness :
  DeepEqual_decides int64s
  /\ Constructed (New (Some [1%Z]))
  /\ Constructed (FromTuple (Some [1%Z]) false)
  /\ (Equal (New (Some [1%Z])) (FromTuple (Some [1%Z]) false) = true
      <-> New (Some [1%Z]) = FromTuple (Some [1%Z]) false).
Proof.
  split; [exact DeepEqual_decides_int64s |].
  split; [apply C_New | split; [apply C_FromTuple |]].
  apply (Equal_iff_eq int64s _ _ (New (Some [1%Z]))
           (FromTuple (Some [1%Z]) false) DeepEqual_decides_int64s).
  - apply C_New.
  - apply C_FromTuple.
Defined.

(** ** Formatting *)

Example ExampleFromTuple :
  GoString (FromTuple (int_of 42) true) = "options.New(42)"
  /\ GoString (FromTuple (int_of 0) false) = "options.None[int]()".
Proof. split; reflexivity. Qed.

Example ExampleOption_GoString :
  GoString (New true) = "options.New(true)"
  /\ GoString (None bool) = "options.None[bool]()".
Proof. split; reflexivity. Qed.

Example ExampleOption_String :
  String (New true) = "true" /\ String (None bool) = "".
Proof. split; reflexivity. Qed.

Lemma GoString_present {T : Type} `{GoType T} `{GoSyntax T} (o : Option T) :
  present o = true ->
  GoString o = "options.New(" ++ Sprint_GoSyntax (value o) ++ ")".
Proof. intros Hp. unfold GoString. now rewrite Hp. Qed.

Lemma GoString_absent {T : Type} `{GoType T} `{GoSyntax T} (o : Option T) :
  present o = false ->
  GoString o = "options.None[" ++ Sprint_T (box (value o)) ++ "]()".
Proof. intros Hp. unfold GoString. now rewrite Hp. Qed.

(** The Go representation tells a present option from an absent one,
    whatever the payloads print as. *)
Theorem GoString_distinguishes :
  forall (T : Type) (GT : GoType T) (GS : GoSyntax T) (a b : Option T),
    present a = true -> present b = false -> GoString a <> GoString b.
Proof.
  intros T GT GS a b Ha Hb.
  rewrite (GoString_present a Ha), (GoString_absent b Hb).
  simpl. discriminate.
Qed.

Lemma GoString_distinguishes_witness :
  present (New 0%Z) = true
  /\ present (None int64) = false
  /\ GoString (New 0%Z) <> GoString (None int64).
Proof.
  split; [reflexivity | split; [reflexivity |]].
  apply (GoString_distinguishes int64 _ _ (New 0%Z) (None int64));
    reflexivity.
Defined.

(** For a payload type that is not an interface type, the Go representation
    of an absent constructed option is the call of None at the name of the
    payload type. *)
Theorem GoString_None :
  forall (T : Type) (GT : GoType T) (GS : GoSyntax T) (o : Option T),
    names_its_type T -> Constructed o -> present o = false ->
    GoString o = "options.None[" ++ type_String static_type ++ "]()".
Proof.
  intros T GT GS o Hn Hc Hp.
  rewrite (GoString_absent o Hp). now rewrite Hn.
Qed.

Lemma GoString_None_witness :
  let o := fst (Scan (New 3%Z) Nil) in
  names_its_type int64 /\ Constructed o /\ present o = false
  /\ GoString o = "options.None[int64]()".
Proof.
  intro o.
  assert (Hc : Constructed o) by apply C_Scan, C_New.
  split; [exact names_its_type_int64 | split; [exact Hc |]].
  split; [reflexivity |].
  apply (GoString_None int64 _ _ o names_its_type_int64 Hc). reflexivity.
Defined.

(** The display string does not tell an absent option from a present one
    whose value prints as the empty string. *)
Theorem String_ambiguous :
  forall (T : Type) (GT : GoType T) (SP : Sprinter T) (v : T),
    Sprint v = "" -> String (New v) = String (None T).
Proof. intros T GT SP v Hs. unfold String; simpl. exact Hs. Qed.

Lemma String_ambiguous_witness :
  Sprint "" = "" /\ String (New "") = String (None string).
Proof.
  split; [reflexivity |].
  apply (String_ambiguous string _ _ ""). reflexivity.
Defined.

(** ** Error messages at payload types that are not interface types *)

(** The panic of Unwrap on an absent option carries an error whose operand
    for the verb %T prints the name of the payload type. *)
Theorem Unwrap_panic_names_type :
  forall (T : Type) (GT : GoType T) (o : Option T),
    names_its_type T -> present o = false ->
    exists x,
      Unwrap o = Panic (Errorf "Option[%T].Unwrap: unwrapping None value"
                               [arg x])
      /\ Sprint_T x = type_String static_type.
Proof.
  intros T GT o Hn Hp. exists (box (value o)).
  unfold Unwrap. rewrite Hp. split; [reflexivity | apply Hn].
Qed.

Lemma Unwrap_panic_names_type_witness :
  names_its_type string /\ present (None string) = false
  /\ exists x,
       Unwrap (None string)
       = Panic (Errorf "Option[%T].Unwrap: unwrapping None value" [arg x])
       /\ Sprint_T x = "string".
Proof.
  split; [exact names_its_type_string | split; [reflexivity |]].
  apply (Unwrap_panic_names_type string _ (None string)
           names_its_type_string eq_refl).
Defined.

(** When encoding/json refuses the input, the error of UnmarshalJSON wraps
    the error of encoding/json and its operand for the verb %T prints the
    name of the payload type. *)
Theorem UnmarshalJSON_error_names_type :
  forall (T : Type) (GT : GoType T) (U : Unmarshal T)
         (o : Option T) (bytes : string) (err : error),
    names_its_type T -> json_Unmarshal bytes = Err err ->
    exists x e,
      UnmarshalJSON o bytes = (o, Some e)
      /\ e = Errorf "Option[%T].UnmarshalJSON: %w" [arg x; wrapped err]
      /\ Sprint_T x = type_String static_type
      /\ Go.Unwrap e = Some err.
Proof.
  intros T GT U o bytes err Hn Hj. unfold UnmarshalJSON. rewrite Hj.
  eexists; eexists; repeat split. apply Hn.
Qed.

Lemma UnmarshalJSON_error_names_type_witness :
  names_its_type bool
  /\ json_Unmarshal (T := bool) "yes" = Err (json_error "yes" bool_t)
  /\ exists x e,
       UnmarshalJSON (New true) "yes" = (New true, Some e)
       /\ e = Errorf "Option[%T].UnmarshalJSON: %w"
                     [arg x; wrapped (json_error "yes" bool_t)]
       /\ Sprint_T x = "bool"
       /\ Go.Unwrap e = Some (json_error "yes" bool_t).
Proof.
  assert (Hj : json_Unmarshal (T := bool) "yes"
               = Err (json_error "yes" bool_t)) by reflexivity.
  split; [exact names_its_type_bool | split; [exact Hj |]].
  apply (UnmarshalJSON_error_names_type bool _ _ (New true) "yes"
           (json_error "yes" bool_t) names_its_type_bool Hj).
Defined.

(** When the type assertion of Scan fails, its error has the converted
    value as the operand of %#v, and its operands for %T print the name of
    the payload type. *)
Theorem Scan_assert_error_names_type :
  forall (T : Type) (GT : GoType T) (o : Option T) (src av : any),
    names_its_type T ->
    src <> Nil -> ConvertValue src = Ok av -> snd (assert av) = false ->
    exists x,
      Scan o src
      = (o, Some (Errorf
                    "Option[%T].Scan: failed to convert value %#v to type %T"
                    [arg x; arg av; arg x]))
      /\ Sprint_T x = type_String static_type.
Proof.
  intros T GT o src av Hn Hs Hc Ha. exists (box (value o)).
  split; [| apply Hn].
  destruct (assert av) as [v ok] eqn:Hav. simpl in Ha; subst ok.
  now apply (Scan_not_asserted o src av v).
Qed.

Lemma Scan_assert_error_names_type_witness :
  names_its_type string
  /\ of_int64 3%Z <> Nil
  /\ ConvertValue (of_int64 3%Z) = Ok (of_int64 3%Z)
  /\ snd (assert (T := string) (of_int64 3%Z)) = false
  /\ exists x,
       Scan (New "s") (of_int64 3%Z)
       = (New "s",
          Some (Errorf
                  "Option[%T].Scan: failed to convert value %#v to type %T"
                  [arg x; arg (of_int64 3%Z); arg x]))
       /\ Sprint_T x = "string".
Proof.
  assert (Hs : of_int64 3%Z <> Nil) by discriminate.
  split; [exact names_its_type_string | split; [exact Hs |]].
  split; [reflexivity | split; [reflexivity |]].
  apply (Scan_assert_error_names_type string _ (New "s") (of_int64 3%Z)
           (of_int64 3%Z) names_its_type_string Hs eq_refl eq_refl).
Defined.

(** When the driver cannot convert the source, the error of Scan wraps the
    error of the driver and its operand for %T prints the name of the
    payload type. *)
Theorem Scan_convert_error_names_type :
  forall (T : Type) (GT : GoType T) (o : Option T) (src : any) (err : error),
    names_its_type T ->
    src <> Nil -> ConvertValue src = Err err ->
    exists x e,
      Scan o src = (o, Some e)
      /\ e = Errorf
               "Option[%T].Scan: failed to convert value from SQL driver: %w"
               [arg x; wrapped err]
      /\ Sprint_T x = type_String static_type
      /\ Go.Unwrap e = Some err.
Proof.
  intros T GT o src err Hn Hs Hc.
  destruct (Scan_not_converted o src err Hs Hc) as [e [H1 [H2 H3]]].
  exists (box (value o)), e. repeat split; auto.
Qed.

Lemma Scan_convert_error_names_type_witness :
  let src := of_int64s (Some [1%Z]) in
  names_its_type int64s
  /\ src <> Nil
  /\ ConvertValue src = Err (driver_error src)
  /\ exists x e,
       Scan (None int64s) src = (None int64s, Some e)
       /\ e = Errorf
                "Option[%T].Scan: failed to convert value from SQL driver: %w"
                [arg x; wrapped (driver_error src)]
       /\ Sprint_T x = "[]int64"
       /\ Go.Unwrap e = Some (driver_error src).
Proof.
  intro src.
  assert (Hs : src <> Nil) by discriminate.
  split; [exact names_its_type_int64s | split; [exact Hs |]].
  split; [reflexivity |].
  apply (Scan_convert_error_names_type int64s _ (None int64s) src
           (driver_error src) names_its_type_int64s Hs eq_refl).
Defined.

(** ** JSON round trips at payload types *)

Lemma bool_round_trip_witness :
  Constructed (New false)
  /\ exists data,
       MarshalJSON (New false) = Ok data
       /\ UnmarshalJSON (New true) data = (New false, Datatypes.None).
Proof.
  split; [apply C_New |].
  apply (bool_round_trip (New false) (New true)). apply C_New.
Defined.

(** *** Decimal numerals *)

Lemma rev_onto_rev_onto (s a b : string) :
  rev_onto (rev_onto s a) b = rev_onto a (s ++ b).
Proof.
  revert a b. induction s as [| c s IH]; intros a b; simpl;
    [reflexivity | now rewrite IH].
Qed.

Lemma append_empty (s : string) : s ++ "" = s.
Proof. induction s as [| c s IH]; simpl; [reflexivity | now rewrite IH]. Qed.

Lemma rev_onto_no_space (s acc : string) :
  no_space s = true -> no_space acc = true ->
  no_space (rev_onto s acc) = true.
Proof.
  revert acc. induction s as [| c s IH]; intros acc Hs Ha; simpl in *;
    [exact Ha |].
  apply Bool.andb_true_iff in Hs as [Hc Hs].
  apply IH; [exact Hs |]. simpl. now rewrite Hc, Ha.
Qed.

Lemma trim_left_no_space (s : string) :
  no_space s = true -> trim_left s = s.
Proof.
  destruct s as [| c s]; simpl; [reflexivity |].
  intros Hs. apply Bool.andb_true_iff in Hs as [Hc _].
  now destruct (is_space c).
Qed.

Lemma trim_no_space (s : string) : no_space s = true -> trim s = s.
Proof.
  intros Hs. unfold trim.
  rewrite (trim_left_no_space s Hs).
  rewrite trim_left_no_space by now apply rev_onto_no_space.
  rewrite rev_onto_rev_onto. simpl. apply append_empty.
Qed.

Lemma string_of_uint_no_space (d : Decimal.uint) :
  no_space (NilEmpty.string_of_uint d) = true.
Proof. induction d; simpl; auto. Qed.

Lemma digits_string_of_uint (d : Decimal.uint) (acc : positive) :
  digits (NilEmpty.string_of_uint d) (Zpos acc)
  = Some (Zpos (Pos.of_uint_acc d acc)).
Proof.
  revert acc. induction d; intros acc; [reflexivity | ..];
    cbn [NilEmpty.string_of_uint digits Pos.of_uint_acc];
    match goal with
    | |- context [digit ?c] =>
        let v := eval vm_compute in (digit c) in
        change (digit c) with v
    end; cbv iota beta;
    match goal with
    | IH : forall acc, _ = _ |- digits _ ?z = Some (Zpos (Pos.of_uint_acc _ ?q)) =>
        replace z with (Zpos q) by lia; apply IH
    end.
Qed.

Lemma to_uint_normal (p : positive) :
  Decimal.unorm (Pos.to_uint p) = Pos.to_uint p.
Proof.
  rewrite <- DecimalPos.Unsigned.to_of.
  now rewrite DecimalPos.Unsigned.of_to.
Qed.

Lemma to_uint_head (p : positive) :
  match Pos.to_uint p with
  | Decimal.Nil | Decimal.D0 _ => False
  | _ => True
  end.
Proof.
  pose proof (to_uint_normal p) as Hn.
  pose proof (DecimalPos.Unsigned.to_uint_nonzero p) as Hz.
  pose proof (DecimalPos.Unsigned.to_uint_nonnil p) as Hl.
  destruct (Pos.to_uint p) as [| l | | | | | | | | |]; try exact I.
  - now apply Hl.
  - rewrite DecimalFacts.unorm_D0 in Hn. unfold Decimal.unorm in Hn.
    destruct (Decimal.nzhead l) eqn:Hh; try discriminate Hn.
    + apply Hz. now injection Hn as <-.
    + exact (DecimalFacts.nzhead_nonzero _ _ Hh).
Qed.

(** The decimal numeral Go prints for a positive integer is read back as
    that integer. *)
Lemma natural_to_uint (p : positive) :
  natural (NilEmpty.string_of_uint (Pos.to_uint p)) = Some (Zpos p)
  /\ NilZero.string_of_uint (Pos.to_uint p)
     = NilEmpty.string_of_uint (Pos.to_uint p)
  /\ exists c rest,
       NilEmpty.string_of_uint (Pos.to_uint p) = String.String c rest
       /\ Ascii.eqb c "-" = false /\ Ascii.eqb c "n" = false.
Proof.
  pose proof (to_uint_head p) as Hh.
  pose proof (DecimalPos.Unsigned.of_to p) as Ho.
  destruct (Pos.to_uint p) as [| l | l | l | l | l | l | l | l | l | l];
    try contradiction;
    (split; [| split; [reflexivity | eexists; eexists; repeat split]]);
    cbn [Pos.of_uint] in Ho; injection Ho as Ho;
    cbn [NilEmpty.string_of_uint natural digits];
    match goal with
    | |- context [digit ?c] =>
        let v := eval vm_compute in (digit c) in
        change (digit c) with v
    end; cbv iota beta; simpl Z.add;
    rewrite digits_string_of_uint; now rewrite Ho.
Qed.

Lemma integer_int64_String (i : int64) :
  integer (int64_String i) = Some i
  /\ no_space (int64_String i) = true
  /\ String.eqb (int64_String i) "null" = false.
Proof.
  unfold int64_String.
  destruct i as [| p | p]; [repeat split | ..]; cbn [Z.to_int];
    destruct (natural_to_uint p) as [Hn [Hz [c [rest [Hs [Hm Hl]]]]]].
  - cbn [NilZero.string_of_int]. rewrite Hz.
    split; [| split].
    + rewrite Hs in *. unfold integer.
      destruct (Ascii.eqb_spec c "-"); [discriminate |].
      destruct c as [[] [] [] [] [] [] [] []]; try exact Hn; congruence.
    + apply string_of_uint_no_space.
    + rewrite Hs. simpl. now rewrite Hl.
  - cbn [NilZero.string_of_int]. rewrite Hz.
    split; [| split].
    + cbn [integer]. now rewrite Hn.
    + simpl. apply string_of_uint_no_space.
    + reflexivity.
Qed.

(** An int64 is decoded from its own encoding. *)
Lemma int64_decode_encode (i : int64) :
  in_int64 i = true ->
  is_null (int64_String i) = false
  /\ json_decode (int64_String i) = Ok i.
Proof.
  intros Hr. destruct (integer_int64_String i) as [Hi [Hs Hn]].
  unfold is_null, json_decode, int64_Unmarshal, int64_element.
  rewrite (trim_no_space _ Hs), Hn, Hi, Hr. split; reflexivity.
Qed.

(** A constructed Option[int64], absent or present with any int64, is read
    back by UnmarshalJSON from the bytes MarshalJSON writes for it, whatever
    the receiver held. *)
Theorem int64_round_trip :
  forall x r : Option int64,
    Constructed x ->
    (present x = true -> in_int64 (value x) = true) ->
    exists data,
      MarshalJSON x = Ok data /\ UnmarshalJSON r data = (x, Datatypes.None).
Proof.
  intros x r Hc Hr.
  destruct (present x) eqn:Hp.
  - destruct x as [v p]; simpl in *; subst p.
    destruct (int64_decode_encode v (Hr eq_refl)) as [Hn Hd].
    exists (int64_String v). split; [reflexivity |].
    now apply UnmarshalJSON_decoded.
  - rewrite (Constructed_absent x Hc Hp).
    exists "null". split; reflexivity.
Qed.

Lemma int64_round_trip_witness :
  let x := New (-9223372036854775808)%Z in
  Constructed x
  /\ in_int64 (value x) = true
  /\ exists data,
       MarshalJSON x = Ok data
       /\ UnmarshalJSON (New 1%Z) data = (x, Datatypes.None).
Proof.
  intro x.
  assert (Hc : Constructed x) by apply C_New.
  split; [exact Hc | split; [reflexivity |]].
  apply (int64_round_trip x (New 1%Z) Hc). reflexivity.
Defined.

(** *** Arrays *)

Lemma string_of_uint_no_comma (d : Decimal.uint) :
  no_comma (NilEmpty.string_of_uint d) = true.
Proof. induction d; simpl; auto. Qed.

Lemma int64_String_no_comma (i : int64) : no_comma (int64_String i) = true.
Proof.
  unfold int64_String.
  destruct i as [| p | p]; [reflexivity | ..]; cbn [Z.to_int];
    destruct (natural_to_uint p) as [_ [Hz _]];
    cbn [NilZero.string_of_int]; rewrite Hz; simpl;
    apply string_of_uint_no_comma.
Qed.

Lemma int64_String_not_empty (i : int64) : int64_String i <> "".
Proof.
  intros He. destruct (integer_int64_String i) as [Hi _].
  rewrite He in Hi. discriminate Hi.
Qed.

Lemma split_commas_not_nil (s : string) : split_commas s <> [].
Proof.
  destruct s as [| c s]; simpl; [discriminate |].
  destruct (Ascii.eqb c ","); [discriminate |].
  destruct (split_commas s); discriminate.
Qed.

Lemma split_commas_no_comma (s : string) :
  no_comma s = true -> split_commas s = [s].
Proof.
  induction s as [| c s IH]; simpl; [reflexivity |].
  intros Hs. apply Bool.andb_true_iff in Hs as [Hc Hs].
  destruct (Ascii.eqb c ","); [discriminate |].
  now rewrite (IH Hs).
Qed.

Lemma split_commas_app (a t : string) :
  no_comma a = true ->
  split_commas (a ++ String.String "," t) = a :: split_commas t.
Proof.
  induction a as [| c a IH]; simpl; [reflexivity |].
  intros Ha. apply Bool.andb_true_iff in Ha as [Hc Ha].
  destruct (Ascii.eqb c ","); [discriminate |].
  now rewrite (IH Ha).
Qed.

Lemma split_commas_join (pieces : list string) :
  pieces <> [] -> forallb no_comma pieces = true ->
  split_commas (join "," pieces) = pieces.
Proof.
  induction pieces as [| a rest IH]; [congruence |].
  intros _ Hp. simpl in Hp. apply Bool.andb_true_iff in Hp as [Ha Hr].
  destruct rest as [| b rest].
  - simpl. now apply split_commas_no_comma.
  - change (join "," (a :: b :: rest))
      with (a ++ String.String "," (join "," (b :: rest))).
    rewrite (split_commas_app _ _ Ha). f_equal.
    apply IH; [discriminate | exact Hr].
Qed.

Lemma no_space_app (a b : string) :
  no_space a = true -> no_space b = true -> no_space (a ++ b) = true.
Proof.
  induction a as [| c a IH]; simpl; [auto |].
  intros Ha Hb. apply Bool.andb_true_iff in Ha as [Hc Ha].
  rewrite Hc. simpl. now apply IH.
Qed.

Lemma join_no_space (l : list int64) :
  no_space (join "," (map int64_String l)) = true.
Proof.
  induction l as [| a [| b l] IH]; [reflexivity | ..].
  - simpl. apply integer_int64_String.
  - change (join "," (map int64_String (a :: b :: l)))
      with (int64_String a ++ "," ++ join "," (map int64_String (b :: l))).
    apply no_space_app; [apply integer_int64_String |].
    simpl. exact IH.
Qed.

Lemma int64_elements_encoded (l : list int64) :
  forallb in_int64 l = true ->
  int64_elements (map int64_String l) = Some l.
Proof.
  induction l as [| a l IH]; simpl; [reflexivity |].
  intros Hl. apply Bool.andb_true_iff in Hl as [Ha Hl].
  destruct (integer_int64_String a) as [Hi [Hs Hn]].
  unfold int64_element. rewrite (trim_no_space _ Hs), Hn, Hi, Ha.
  now rewrite (IH Hl).
Qed.

Lemma rev_onto_app (s t acc : string) :
  rev_onto (s ++ t) acc = rev_onto t (rev_onto s acc).
Proof.
  revert acc. induction s as [| c s IH]; intros acc; simpl;
    [reflexivity | apply IH].
Qed.

(** A non-nil []int64 is decoded from its own encoding. *)
Lemma int64s_decode_encode (l : list int64) :
  forallb in_int64 l = true ->
  let data := "[" ++ join "," (map int64_String l) ++ "]" in
  is_null data = false /\ json_decode data = Ok (Some l).
Proof.
  intros Hl data.
  assert (Hs : no_space data = true).
  { unfold data. simpl. apply no_space_app; [apply join_no_space |].
    reflexivity. }
  assert (Hn : is_null data = false).
  { unfold is_null. rewrite (trim_no_space _ Hs). reflexivity. }
  split; [exact Hn |].
  unfold json_decode, int64s_Unmarshal. rewrite Hn.
  unfold int64_array. rewrite (trim_no_space _ Hs).
  unfold data. cbn [append].
  rewrite rev_onto_app. cbn [rev_onto].
  rewrite rev_onto_rev_onto. cbn [rev_onto]. rewrite append_empty.
  destruct l as [| a l].
  - reflexivity.
  - rewrite (trim_no_space _ (join_no_space (a :: l))).
    assert (He : String.eqb (join "," (map int64_String (a :: l))) ""
                 = false).
    { apply String.eqb_neq. intros He.
      apply (int64_String_not_empty a).
      destruct l; simpl in He; [exact He |].
      destruct (int64_String a); [reflexivity | discriminate He]. }
    rewrite He, split_commas_join.
    + now rewrite (int64_elements_encoded _ Hl).
    + discriminate.
    + rewrite forallb_forall. intros piece Hin.
      apply in_map_iff in Hin as [i [<- _]].
      apply int64_String_no_comma.
Qed.

(** A constructed Option[[]int64] is read back by UnmarshalJSON from the
    bytes MarshalJSON writes for it when it is absent or wraps a slice of
    int64 that is not nil; the empty slice comes back as the empty slice. *)
Theorem int64s_round_trip :
  forall x r : Option int64s,
    Constructed x ->
    (present x = true ->
       exists l, value x = Some l /\ forallb in_int64 l = true) ->
    exists data,
      MarshalJSON x = Ok data /\ UnmarshalJSON r data = (x, Datatypes.None).
Proof.
  intros x r Hc Hr.
  destruct (present x) eqn:Hp.
  - destruct x as [v p]; simpl in *; subst p.
    destruct (Hr eq_refl) as [l [-> Hl]].
    destruct (int64s_decode_encode l Hl) as [Hn Hd].
    eexists. split; [reflexivity |].
    now apply UnmarshalJSON_decoded.
  - rewrite (Constructed_absent x Hc Hp).
    exists "null". split; reflexivity.
Qed.

Lemma int64s_round_trip_witness :
  let x := New (Some [] : int64s) in
  Constructed x
  /\ (exists l, value x = Some l /\ forallb in_int64 l = true)
  /\ exists data,
       MarshalJSON x = Ok data
       /\ UnmarshalJSON (None int64s) data = (x, Datatypes.None).
Proof.
  intro x.
  assert (Hc : Constructed x) by apply C_New.
  assert (Hl : exists l, value x = Some l /\ forallb in_int64 l = true)
    by (exists []; split; reflexivity).
  split; [exact Hc | split; [exact Hl |]].
  apply (int64s_round_trip x (None int64s) Hc). intros _. exact Hl.
Defined.

(** *** The round trip of an option *)

(** The payloads encoding/json makes the round trip for, and which of them
    it writes as null. *)
Lemma json_faithful_bool (b : bool) :
  json_faithful b /\ ~ encodes_as_null b.
Proof.
  split.
  - destruct b; eexists; split; reflexivity.
  - intros [data [He Hn]]. destruct b; injection He as <-; discriminate Hn.
Qed.

Lemma json_faithful_int64 (i : int64) :
  in_int64 i = true -> json_faithful i /\ ~ encodes_as_null i.
Proof.
  intros Hr. destruct (int64_decode_encode i Hr) as [Hn Hd]. split.
  - exists (int64_String i). split; [reflexivity | exact Hd].
  - intros [data [He Hz]]. unfold json_encode, int64_Marshal in He.
    injection He as <-. discriminate (eq_trans (eq_sym Hz) Hn).
Qed.

Lemma json_faithful_int64s (l : list int64) :
  forallb in_int64 l = true ->
  json_faithful (Some l : int64s) /\ ~ encodes_as_null (Some l : int64s).
Proof.
  intros Hl. destruct (int64s_decode_encode l Hl) as [Hn Hd]. split.
  - eexists. split; [reflexivity | exact Hd].
  - intros [data [He Hz]]. unfold json_encode, int64s_Marshal in He.
    injection He as <-. discriminate (eq_trans (eq_sym Hz) Hn).
Qed.

Lemma nil_slice_encodes_as_null :
  json_faithful (Datatypes.None : int64s)
  /\ encodes_as_null (Datatypes.None : int64s).
Proof. split; exists "null"; split; reflexivity. Qed.

(** A present payload that encoding/json writes as null is read back as the
    absent option. *)
Lemma null_payload_round_trip {T : Type} `{GoType T} `{Marshal T}
  `{Unmarshal T} (v : T) (r : Option T) :
  encodes_as_null v ->
  exists data,
    MarshalJSON (New v) = Ok data
    /\ UnmarshalJSON r data = (None T, Datatypes.None).
Proof.
  intros [data [He Hn]]. exists data. split; [exact He |].
  now apply UnmarshalJSON_null.
Qed.

(** C6, as the code has it: for a constructed option that is absent, or
    present with a payload that encoding/json writes and reads back (a
    representable one) and does not write as null, MarshalJSON succeeds and
    UnmarshalJSON of the bytes it produced sets any receiver to that
    option. *)
Theorem JSON_round_trip :
  forall (T : Type) (GT : GoType T) (M : Marshal T) (U : Unmarshal T)
         (x r : Option T),
    Constructed x ->
    (present x = true ->
       json_faithful (value x) /\ ~ encodes_as_null (value x)) ->
    exists data,
      MarshalJSON x = Ok data /\ UnmarshalJSON r data = (x, Datatypes.None).
Proof.
  intros T GT M U x r Hc Hx.
  destruct (present x) eqn:Hp.
  - destruct x as [v p]; simpl in *; subst p.
    destruct (Hx eq_refl) as [[data [He Hd]] Hnull].
    exists data. split; [exact He |].
    apply UnmarshalJSON_decoded; [| exact Hd].
    destruct (is_null data) eqn:Hn; [| reflexivity].
    exfalso. apply Hnull. exists data. now split.
  - rewrite (Constructed_absent x Hc Hp).
    exists "null". split; reflexivity.
Qed.

Lemma JSON_round_trip_witness :
  let x := New (Some [1; -2]%Z : int64s) in
  Constructed x
  /\ (json_faithful (value x) /\ ~ encodes_as_null (value x))
  /\ exists data,
       MarshalJSON x = Ok data
       /\ UnmarshalJSON (New (Datatypes.None : int64s)) data
          = (x, Datatypes.None).
Proof.
  intro x.
  assert (Hc : Constructed x) by apply C_New.
  assert (Hf : json_faithful (value x) /\ ~ encodes_as_null (value x))
    by (apply json_faithful_int64s; reflexivity).
  split; [exact Hc | split; [exact Hf |]].
  apply (JSON_round_trip int64s _ _ _ x (New (Datatypes.None : int64s)) Hc).
  intros _. exact Hf.
Defined.
